(** * NeonBlue frontend: the results data pipeline

    A shallow embedding of [src/lib/api.ts] (the authenticated API client),
    [src/types/api.ts] (the domain model) and the data-handling part of
    [src/components/ExperimentsDashboard.tsx] (the load controller and the
    chart view models), together with the properties the specification
    states about them.

    Conventions of the embedding.
    - A JavaScript string is a [string]; the model covers ASCII text (code
      units below 128), which is where [trim] and [toUpperCase] are defined
      here exactly as the engine defines them.
    - Counts and identifiers are integers ([Z]); rates and percentages are
      rationals ([Q]) that the code only ever passes through.
    - A JavaScript object used as a dictionary is a [gmap] when the code
      builds it, and the list of its own properties in enumeration order
      when the code enumerates it ([Object.keys], [Object.entries]).
    - The network is an input: every operation that awaits [fetch] takes
      the outcome of that [fetch] as an argument and returns the request it
      issued next to its own result. *)

From Stdlib Require Import ZArith QArith Ascii String List Bool.
From stdpp Require Import base option list strings gmap pretty.
Import ListNotations.

Local Open Scope Z_scope.
#[local] Set Warnings "-register-all,-clear-no-such-hyp".

(** ** JavaScript values *)

Module Js.

(** What a [throw] or a rejected promise carries. The code only ever asks
    [err instanceof Error] and reads [err.message]. *)
Inductive thrown : Type :=
  | ErrorObj (message : string)   (* an Error, TypeError, SyntaxError, ... *)
  | NonError.                     (* any other thrown value *)

(** A settled promise (or the result of a function that may throw). *)
Inductive result (T : Type) : Type :=
  | Resolved (v : T)
  | Rejected (e : thrown).
Arguments Resolved {T} v.
Arguments Rejected {T} e.

(** A parsed JSON document. Numbers are the integers (those that
    [toString] prints in plain decimal); an object is the list of its own
    properties. *)
Inductive json : Type :=
  | JNull
  | JBool (b : bool)
  | JNum (n : Z)
  | JStr (s : string)
  | JArr (items : list json)
  | JObj (fields : list (string * json)).

(** [o[k]] on an association list of own properties. *)
Fixpoint own_property {V : Type} (fields : list (string * V)) (k : string)
  : option V :=
  match fields with
  | [] => None
  | (k', v) :: rest => if String.eqb k' k then Some v else own_property rest k
  end.

(** The message of the TypeError raised by [null.detail] (V8's wording). *)
Definition null_property_message (prop : string) : string :=
  "Cannot read properties of null (reading '" +:+ prop +:+ "')".

(** [v.prop] for a parsed JSON value [v] and a property name that is
    neither inherited nor an array index: [None] is [undefined]. *)
Definition get_property (v : json) (prop : string)
  : result (option json) :=
  match v with
  | JNull => Rejected (ErrorObj (null_property_message prop))
  | JObj fields => Resolved (own_property fields prop)
  | _ => Resolved None
  end.

(** ToBoolean. *)
Definition truthy (v : option json) : bool :=
  match v with
  | None => false
  | Some JNull => false
  | Some (JBool b) => b
  | Some (JNum n) => negb (n =? 0)
  | Some (JStr s) => negb (String.eqb s "")
  | Some (JArr _) => true
  | Some (JObj _) => true
  end.

(** ToString, as [new Error(v)] applies it to its argument. *)
Fixpoint to_string (v : json) : string :=
  match v with
  | JNull => "null"
  | JBool true => "true"
  | JBool false => "false"
  | JNum n => pretty n
  | JStr s => s
  | JArr items =>
      let element (x : json) : string :=
        match x with JNull => "" | _ => to_string x end in
      (fix join (l : list json) : string :=
         match l with
         | [] => ""
         | [x] => element x
         | x :: rest => element x +:+ "," +:+ join rest
         end) items
  | JObj _ => "[object Object]"
  end.

(** [s.trim()]: strips white space and line terminators from both ends. *)
Definition is_white_space (c : ascii) : bool :=
  let n := nat_of_ascii c in
  ((9 <=? n) && (n <=? 13))%nat || (n =? 32)%nat.

Fixpoint trim_start (s : string) : string :=
  match s with
  | String c rest => if is_white_space c then trim_start rest else s
  | EmptyString => EmptyString
  end.

Fixpoint trim_end (s : string) : string :=
  match s with
  | String c rest =>
      match trim_end rest with
      | EmptyString => if is_white_space c then EmptyString
                       else String c EmptyString
      | rest' => String c rest'
      end
  | EmptyString => EmptyString
  end.

Definition trim (s : string) : string := trim_end (trim_start s).

(** [c.toUpperCase()] for one code unit. *)
Definition toUpperCase_char (c : ascii) : ascii :=
  let n := nat_of_ascii c in
  if ((97 <=? n) && (n <=? 122))%nat then ascii_of_nat (n - 32) else c.

(** [s.charAt(0).toUpperCase() + s.slice(1)]. *)
Definition capitalize (s : string) : string :=
  match s with
  | String c rest => String (toUpperCase_char c) rest
  | EmptyString => EmptyString
  end.

End Js.
Import Js.

(** ** The domain model ([src/types/api.ts])

    One module per interface, so that fields keep their names. A field is
    an [option] where the interface marks it optional or where the code
    that reads it guards against its absence. *)

Inductive ExperimentStatus : Type := draft | running | paused | completed.

Module Variant.
Record t : Type := {
  id : Z;
  experiment_id : Z;
  name : string;
  traffic_allocation : Q;
  config : option json
}.
End Variant.

Module Experiment.
Record t : Type := {
  id : Z;
  name : string;
  description : option string;
  status : ExperimentStatus;
  created_at : string;
  started_at : option string;
  ended_at : option string;
  variants : list Variant.t
}.
End Experiment.

Module ExperimentsListResponse.
Record t : Type := {
  experiments : option (list Experiment.t);  (* read as [experiments || []] *)
  total : Z;
  limit : Z;
  offset : Z
}.
End ExperimentsListResponse.

Module VariantMetrics.
Record t : Type := {
  variant_id : Z;
  variant_name : string;
  total_assignments : Z;
  total_events : Z;
  unique_users_with_events : Z;
  conversion_rate : Q;
  events_by_type : list (string * Z);   (* own properties, in key order *)
  events_per_user : Q
}.
End VariantMetrics.

Module TimeSeriesDataPoint.
Record t : Type := {
  timestamp : string;
  variant_id : Z;
  variant_name : string;
  assignments : Z;
  events : Z;
  conversion_rate : Q
}.
End TimeSeriesDataPoint.

Inductive ConfidenceLevel : Type := low | medium | high | significant.

Module ResultsSummary.
Record t : Type := {
  total_assignments : Z;
  total_events : Z;
  overall_conversion_rate : Q;
  leading_variant : option string;
  confidence_level : ConfidenceLevel
}.
End ResultsSummary.

Module ExperimentResults.
Record t : Type := {
  experiment_id : Z;
  experiment_name : string;
  experiment_status : ExperimentStatus;
  analysis_start : string;
  analysis_end : string;
  summary : option ResultsSummary.t;
  variant_metrics : option (list VariantMetrics.t);
  time_series : option (list TimeSeriesDataPoint.t);
  events_by_type : option (list (string * Z));
  generated_at : string
}.
End ExperimentResults.

(** ** The API client ([src/lib/api.ts]) *)

Module Api.

(** What [fetch] is called with. *)
Record Request : Type := {
  url : string;
  headers : gmap string string
}.

(** [await response.json()]. *)
Inductive json_outcome (T : Type) : Type :=
  | Parsed (v : T)
  | Unparsable (e : thrown).   (* no body, or a body that is not JSON *)
Arguments Parsed {T} v.
Arguments Unparsable {T} e.

(** What [await fetch(...)] comes back with, for a call whose data is
    typed [T]. [fetch] rejects only when no response arrives; a response
    has [response.ok] false exactly when its status is outside 200-299,
    and then its body is read untyped. *)
Inductive fetch_outcome (T : Type) : Type :=
  | NoResponse (e : thrown)
  | ErrorResponse (status : Z) (body : json_outcome json)
  | OkResponse (body : json_outcome T).
Arguments NoResponse {T} e.
Arguments ErrorResponse {T} status body.
Arguments OkResponse {T} body.

(** The module's top-level bindings. *)
Record Module_state : Type := {
  API_BASE_URL : string;
  authToken : option string
}.

Definition default_base_url : string :=
  "http://ec2-3-136-108-183.us-east-2.compute.amazonaws.com:8000".

(** [process.env.NEXT_PUBLIC_API_URL || '...'], [let authToken = null]. *)
Definition load (NEXT_PUBLIC_API_URL : option string) : Module_state :=
  {| API_BASE_URL :=
       match NEXT_PUBLIC_API_URL with
       | Some u => if String.eqb u "" then default_base_url else u
       | None => default_base_url
       end;
     authToken := None |}.

Definition setAuthToken (token : string) (m : Module_state) : Module_state :=
  {| API_BASE_URL := API_BASE_URL m; authToken := Some token |}.

Definition getAuthToken (m : Module_state) : option string := authToken m.

(** The headers [fetchWithAuth] sends: the spread puts [options.headers]
    over the content type, and the bearer token goes in when [authToken]
    is truthy. *)
Definition request_headers (m : Module_state)
    (options_headers : gmap string string) : gmap string string :=
  let headers :=
    options_headers ∪ {[ "Content-Type" := "application/json" ]} in
  match authToken m with
  | Some token =>
      if String.eqb token "" then headers
      else <[ "Authorization" := "Bearer " +:+ token ]> headers
  | None => headers
  end.

(** The [if (!response.ok)] branch: the message of the Error thrown. *)
Definition error_message (status : Z) (body : json_outcome json)
  : result string :=
  let error :=
    match body with
    | Parsed v => v
    | Unparsable _ => JObj [("detail", JStr "Unknown error")]
    end in
  match get_property error "detail" with
  | Rejected e => Rejected e
  | Resolved detail =>
      Resolved (if truthy detail
                then match detail with Some d => to_string d | None => "" end
                else "HTTP " +:+ pretty status)
  end.

Definition fetchWithAuth {T : Type} (m : Module_state) (endpoint : string)
    (options_headers : gmap string string) (net : fetch_outcome T)
  : Request * result T :=
  let request :=
    {| url := API_BASE_URL m +:+ endpoint;
       headers := request_headers m options_headers |} in
  (request,
   match net with
   | NoResponse e => Rejected e
   | ErrorResponse status body =>
       match error_message status body with
       | Resolved message => Rejected (ErrorObj message)
       | Rejected e => Rejected e
       end
   | OkResponse (Parsed v) => Resolved v
   | OkResponse (Unparsable e) => Rejected e
   end).

(** [checkHealth] calls [fetch] directly: no headers, and [response.ok] is
    not looked at. The value it resolves to is whatever the body parses
    to. *)
Definition checkHealth (m : Module_state) (net : fetch_outcome json)
  : Request * result json :=
  ({| url := API_BASE_URL m +:+ "/health"; headers := ∅ |},
   match net with
   | NoResponse e => Rejected e
   | ErrorResponse _ (Parsed v) => Resolved v
   | ErrorResponse _ (Unparsable e) => Rejected e
   | OkResponse (Parsed v) => Resolved v
   | OkResponse (Unparsable e) => Rejected e
   end).

(** *** URLSearchParams *)

Abbreviation URLSearchParams := (list (string * string)).

(** [searchParams.set(name, value)]: the first pair named [name] takes the
    value and later ones go; without one, the pair is appended. *)
Fixpoint searchParams_set (name value : string) (sp : URLSearchParams)
  : URLSearchParams :=
  match sp with
  | [] => [(name, value)]
  | (n, v) :: rest =>
      if String.eqb n name
      then (name, value)
             :: filter (fun p => negb (String.eqb (fst p) name)) rest
      else (n, v) :: searchParams_set name value rest
  end.

Definition hex_digit (n : nat) : ascii :=
  ascii_of_nat (if n <? 10 then 48 + n else 55 + n)%nat.

(** One code unit of the application/x-www-form-urlencoded serializer. *)
Definition urlencode_char (c : ascii) : string :=
  let n := nat_of_ascii c in
  if (((48 <=? n) && (n <=? 57)) || ((65 <=? n) && (n <=? 90))
      || ((97 <=? n) && (n <=? 122))
      || (n =? 42) || (n =? 45) || (n =? 46) || (n =? 95))%nat then
    String c EmptyString
  else if (n =? 32)%nat then "+"
  else String "%" (String (hex_digit (n / 16)%nat)
                     (String (hex_digit (n mod 16)%nat) EmptyString)).

Fixpoint urlencode (s : string) : string :=
  match s with
  | EmptyString => EmptyString
  | String c rest => urlencode_char c +:+ urlencode rest
  end.

(** [searchParams.toString()]. *)
Fixpoint searchParams_toString (sp : URLSearchParams) : string :=
  match sp with
  | [] => ""
  | [(n, v)] => urlencode n +:+ "=" +:+ urlencode v
  | (n, v) :: rest =>
      urlencode n +:+ "=" +:+ urlencode v +:+ "&"
        +:+ searchParams_toString rest
  end.

(** [`${query ? `?${query}` : ''}`]. *)
Definition query_suffix (sp : URLSearchParams) : string :=
  let query := searchParams_toString sp in
  if String.eqb query "" then "" else "?" +:+ query.

(** [if (params?.k) searchParams.set(name, value)] for a string [k]. *)
Definition set_if_string (name : string) (k : option string)
    (sp : URLSearchParams) : URLSearchParams :=
  match k with
  | Some s => if String.eqb s "" then sp else searchParams_set name s sp
  | None => sp
  end.

(** The same for a number [k], serialized with [k.toString()]. *)
Definition set_if_number (name : string) (k : option Z)
    (sp : URLSearchParams) : URLSearchParams :=
  match k with
  | Some n => if n =? 0 then sp else searchParams_set name (pretty n) sp
  | None => sp
  end.

(** The same for a boolean [k]: the value written is a constant. *)
Definition set_if_true (name value : string) (k : option bool)
    (sp : URLSearchParams) : URLSearchParams :=
  match k with
  | Some true => searchParams_set name value sp
  | _ => sp
  end.

(** *** getExperiments *)

Module ListParams.
Record t : Type := {
  status : option string;
  limit : option Z;
  offset : option Z
}.
End ListParams.

Definition getExperiments_searchParams (params : option ListParams.t)
  : URLSearchParams :=
  let sp0 : URLSearchParams := [] in
  let sp1 := set_if_string "status" (params ≫= ListParams.status) sp0 in
  let sp2 := set_if_number "limit" (params ≫= ListParams.limit) sp1 in
  let sp3 := set_if_number "offset" (params ≫= ListParams.offset) sp2 in
  sp3.

Definition getExperiments (m : Module_state) (params : option ListParams.t)
    (net : fetch_outcome ExperimentsListResponse.t)
  : Request * result ExperimentsListResponse.t :=
  let searchParams := getExperiments_searchParams params in
  fetchWithAuth m ("/experiments" +:+ query_suffix searchParams) ∅ net.

(** *** getExperiment *)

Definition getExperiment (m : Module_state) (id : Z)
    (net : fetch_outcome Experiment.t) : Request * result Experiment.t :=
  fetchWithAuth m ("/experiments/" +:+ pretty id) ∅ net.

(** *** getExperimentResults *)

Inductive Format : Type := full | summary | metrics_only.
Inductive Granularity : Type := hour | day | week.

Definition Format_string (f : Format) : string :=
  match f with
  | full => "full" | summary => "summary" | metrics_only => "metrics_only"
  end.

Definition Granularity_string (g : Granularity) : string :=
  match g with hour => "hour" | day => "day" | week => "week" end.

Module ResultsParams.
Record t : Type := {
  start_date : option string;
  end_date : option string;
  event_types : option string;
  format : option Format;
  include_time_series : option bool;
  time_series_granularity : option Granularity
}.
End ResultsParams.

Definition getExperimentResults_searchParams
    (params : option ResultsParams.t) : URLSearchParams :=
  let sp0 : URLSearchParams := [] in
  let sp1 :=
    set_if_string "start_date" (params ≫= ResultsParams.start_date) sp0 in
  let sp2 :=
    set_if_string "end_date" (params ≫= ResultsParams.end_date) sp1 in
  let sp3 :=
    set_if_string "event_types" (params ≫= ResultsParams.event_types) sp2 in
  let sp4 :=
    set_if_string "format"
      (Format_string <$> (params ≫= ResultsParams.format)) sp3 in
  let sp5 :=
    set_if_true "include_time_series" "true"
      (params ≫= ResultsParams.include_time_series) sp4 in
  let sp6 :=
    set_if_string "time_series_granularity"
      (Granularity_string
         <$> (params ≫= ResultsParams.time_series_granularity)) sp5 in
  sp6.

Definition getExperimentResults (m : Module_state) (id : Z)
    (params : option ResultsParams.t)
    (net : fetch_outcome ExperimentResults.t)
  : Request * result ExperimentResults.t :=
  let searchParams := getExperimentResults_searchParams params in
  fetchWithAuth m
    ("/experiments/" +:+ pretty id +:+ "/results"
       +:+ query_suffix searchParams) ∅ net.

(** *** getEventTypes *)

Definition getEventTypes (m : Module_state)
    (net : fetch_outcome (list (string * Z)))
  : Request * result (list (string * Z)) :=
  fetchWithAuth m "/events/types" ∅ net.

End Api.

(** ** The dashboard ([src/components/ExperimentsDashboard.tsx]) *)

Module Dashboard.

Inductive ApiStatus : Type := checking | online | offline.

(** The component's [useState] cells. *)
Record State : Type := {
  token : string;
  isAuthenticated : bool;
  apiStatus : ApiStatus;
  experiments : list Experiment.t;
  selectedExperiment : option Experiment.t;
  results : option ExperimentResults.t;
  loading : bool;
  error : option string;
  showJson : bool
}.

Definition initial_state : State :=
  {| token := ""; isAuthenticated := false; apiStatus := checking;
     experiments := []; selectedExperiment := None; results := None;
     loading := false; error := None; showJson := false |}.

Definition setToken (v : string) (s : State) : State :=
  {| token := v; isAuthenticated := isAuthenticated s;
     apiStatus := apiStatus s; experiments := experiments s;
     selectedExperiment := selectedExperiment s; results := results s;
     loading := loading s; error := error s; showJson := showJson s |}.

Definition setIsAuthenticated (v : bool) (s : State) : State :=
  {| token := token s; isAuthenticated := v;
     apiStatus := apiStatus s; experiments := experiments s;
     selectedExperiment := selectedExperiment s; results := results s;
     loading := loading s; error := error s; showJson := showJson s |}.

Definition setApiStatus (v : ApiStatus) (s : State) : State :=
  {| token := token s; isAuthenticated := isAuthenticated s;
     apiStatus := v; experiments := experiments s;
     selectedExperiment := selectedExperiment s; results := results s;
     loading := loading s; error := error s; showJson := showJson s |}.

Definition setExperiments (v : list Experiment.t) (s : State) : State :=
  {| token := token s; isAuthenticated := isAuthenticated s;
     apiStatus := apiStatus s; experiments := v;
     selectedExperiment := selectedExperiment s; results := results s;
     loading := loading s; error := error s; showJson := showJson s |}.

Definition setSelectedExperiment (v : option Experiment.t) (s : State)
  : State :=
  {| token := token s; isAuthenticated := isAuthenticated s;
     apiStatus := apiStatus s; experiments := experiments s;
     selectedExperiment := v; results := results s;
     loading := loading s; error := error s; showJson := showJson s |}.

Definition setResults (v : option ExperimentResults.t) (s : State) : State :=
  {| token := token s; isAuthenticated := isAuthenticated s;
     apiStatus := apiStatus s; experiments := experiments s;
     selectedExperiment := selectedExperiment s; results := v;
     loading := loading s; error := error s; showJson := showJson s |}.

Definition setLoading (v : bool) (s : State) : State :=
  {| token := token s; isAuthenticated := isAuthenticated s;
     apiStatus := apiStatus s; experiments := experiments s;
     selectedExperiment := selectedExperiment s; results := results s;
     loading := v; error := error s; showJson := showJson s |}.

Definition setError (v : option string) (s : State) : State :=
  {| token := token s; isAuthenticated := isAuthenticated s;
     apiStatus := apiStatus s; experiments := experiments s;
     selectedExperiment := selectedExperiment s; results := results s;
     loading := loading s; error := v; showJson := showJson s |}.

(** The running page: the API module's bindings, the component's state,
    and every request handed to [fetch] so far, oldest first. *)
Record World : Type := {
  api : Api.Module_state;
  ui : State;
  requests : list Api.Request
}.

Definition initial_world (NEXT_PUBLIC_API_URL : option string) : World :=
  {| api := Api.load NEXT_PUBLIC_API_URL; ui := initial_state;
     requests := [] |}.

(** [err instanceof Error ? err.message : fallback]. *)
Definition message_or (fallback : string) (err : thrown) : string :=
  match err with
  | ErrorObj message => message
  | NonError => fallback
  end.

(** The mount effect:
    [checkHealth().then(() => online).catch(() => offline)]. *)
Definition on_mount (w : World) (net : Api.fetch_outcome json) : World :=
  let '(request, probe) := Api.checkHealth (api w) net in
  {| api := api w;
     ui := match probe with
           | Resolved _ => setApiStatus online (ui w)
           | Rejected _ => setApiStatus offline (ui w)
           end;
     requests := requests w ++ [request] |}.

(** [handleLogin], run to completion; [net] is what the one [fetch] it may
    issue comes back with. *)
Definition handleLogin (w : World)
    (net : Api.fetch_outcome ExperimentsListResponse.t) : World :=
  if String.eqb (trim (token (ui w))) "" then
    {| api := api w;
       ui := setError (Some "Please enter an API token") (ui w);
       requests := requests w |}
  else
    let api1 := Api.setAuthToken (token (ui w)) (api w) in
    let ui1 := setError None (setLoading true (ui w)) in
    let '(request, outcome) := Api.getExperiments api1 None net in
    let ui2 :=
      match outcome with
      | Resolved response =>
          setIsAuthenticated true
            (setExperiments
               (default [] (ExperimentsListResponse.experiments response))
               ui1)
      | Rejected err =>
          setIsAuthenticated false
            (setError (Some (message_or "Authentication failed" err)) ui1)
      end in
    {| api := api1;
       ui := setLoading false ui2;
       requests := requests w ++ [request] |}.

(** The options [loadExperimentResults] passes. *)
Definition load_params : Api.ResultsParams.t :=
  {| Api.ResultsParams.start_date := None;
     Api.ResultsParams.end_date := None;
     Api.ResultsParams.event_types := None;
     Api.ResultsParams.format := Some Api.full;
     Api.ResultsParams.include_time_series := Some true;
     Api.ResultsParams.time_series_granularity := Some Api.day |}.

(** [loadExperimentResults] up to its [await]. *)
Definition loadExperimentResults_begin (experiment : Experiment.t)
    (s : State) : State :=
  setError None (setLoading true (setSelectedExperiment (Some experiment) s)).

(** [loadExperimentResults], run to completion. *)
Definition loadExperimentResults (experiment : Experiment.t) (w : World)
    (net : Api.fetch_outcome ExperimentResults.t) : World :=
  let ui1 := loadExperimentResults_begin experiment (ui w) in
  let '(request, outcome) :=
    Api.getExperimentResults (api w) (Experiment.id experiment)
      (Some load_params) net in
  let ui2 :=
    match outcome with
    | Resolved data => setResults (Some data) ui1
    | Rejected err =>
        setResults None
          (setError (Some (message_or "Failed to load results" err)) ui1)
    end in
  {| api := api w;
     ui := setLoading false ui2;
     requests := requests w ++ [request] |}.

(** [handleExperimentSelect]: loads the first selected row, if any. *)
Definition handleExperimentSelect
    (selectedRowsData : option (list Experiment.t)) (w : World)
    (net : Api.fetch_outcome ExperimentResults.t) : World :=
  match selectedRowsData with
  | Some (experiment :: _) => loadExperimentResults experiment w net
  | _ => w
  end.

(** *** Chart data *)

Module AllocationRow.
Record t : Type := { variant : string; allocation : Q }.
End AllocationRow.

Module ConversionRow.
Record t : Type := {
  variant : string; rate : Q; assignments : Z; events : Z
}.
End ConversionRow.

Module EventTypeRow.
Record t : Type := { type : string; count : Z }.
End EventTypeRow.

Module TimeSeriesRow.
Record t : Type := {
  date : string; variant : string; conversions : Z; rate : Q
}.
End TimeSeriesRow.

(** [selectedExperiment?.variants.map(...) || []]. *)
Definition variantAllocationData (s : State) : list AllocationRow.t :=
  match selectedExperiment s with
  | Some experiment =>
      map (fun v =>
             {| AllocationRow.variant := Variant.name v;
                AllocationRow.allocation := Variant.traffic_allocation v |})
          (Experiment.variants experiment)
  | None => []
  end.

(** [results?.variant_metrics?.map(...) || []]. *)
Definition conversionData (s : State) : list ConversionRow.t :=
  match results s ≫= ExperimentResults.variant_metrics with
  | Some variant_metrics =>
      map (fun vm =>
             {| ConversionRow.variant := VariantMetrics.variant_name vm;
                ConversionRow.rate := VariantMetrics.conversion_rate vm;
                ConversionRow.assignments :=
                  VariantMetrics.total_assignments vm;
                ConversionRow.events := VariantMetrics.total_events vm |})
          variant_metrics
  | None => []
  end.

(** [results?.events_by_type ? Object.entries(...).map(...) : []]. *)
Definition eventsByTypeData (s : State) : list EventTypeRow.t :=
  match results s ≫= ExperimentResults.events_by_type with
  | Some events_by_type =>
      map (fun '(type, count) =>
             {| EventTypeRow.type := capitalize type;
                EventTypeRow.count := count |})
          events_by_type
  | None => []
  end.

(** What a property of a matrix row can hold. Reading a key that an
    object does not own falls through to [Object.prototype], whose members
    are functions (and, for [__proto__], the prototype itself). *)
Inductive cell : Type :=
  | CellString (s : string)
  | CellNumber (n : Z)
  | CellInherited (member : string).

Definition Object_prototype_members : list string :=
  [ "constructor"; "hasOwnProperty"; "isPrototypeOf";
    "propertyIsEnumerable"; "toLocaleString"; "toString"; "valueOf";
    "__proto__"; "__defineGetter__"; "__defineSetter__";
    "__lookupGetter__"; "__lookupSetter__" ].

(** [events_by_type[eventType] || 0]. *)
Definition count_or_zero (events_by_type : list (string * Z))
    (eventType : string) : cell :=
  match own_property events_by_type eventType with
  | Some n => if n =? 0 then CellNumber 0 else CellNumber n
  | None =>
      if bool_decide (eventType ∈ Object_prototype_members)
      then CellInherited eventType
      else CellNumber 0
  end.

(** [row[name] = value] on the own properties of a plain object: writing
    [__proto__] goes to the inherited setter and adds no property. *)
Definition row_assign (name : string) (value : cell)
    (row : gmap string cell) : gmap string cell :=
  if String.eqb name "__proto__" then row else <[ name := value ]> row.

(** [eventTypes.add(type)] on a [Set], kept in insertion order. *)
Definition Set_add (type : string) (eventTypes : list string)
  : list string :=
  if bool_decide (type ∈ eventTypes) then eventTypes
  else eventTypes ++ [type].

(** The first pass of [variantEventsData]: the two nested [forEach]. *)
Definition collect_eventTypes (variant_metrics : list VariantMetrics.t)
  : list string :=
  fold_left
    (fun eventTypes vm =>
       fold_left (fun eventTypes type => Set_add type eventTypes)
                 (map fst (VariantMetrics.events_by_type vm)) eventTypes)
    variant_metrics [].

(** The second pass, for one event type. *)
Definition matrix_row (variant_metrics : list VariantMetrics.t)
    (eventType : string) : gmap string cell :=
  fold_left
    (fun row vm =>
       row_assign (VariantMetrics.variant_name vm)
         (count_or_zero (VariantMetrics.events_by_type vm) eventType) row)
    variant_metrics
    {[ "eventType" := CellString (capitalize eventType) ]}.

Definition variantEventsData (s : State) : list (gmap string cell) :=
  match results s ≫= ExperimentResults.variant_metrics with
  | None => []
  | Some variant_metrics =>
      map (matrix_row variant_metrics) (collect_eventTypes variant_metrics)
  end.

(** [results?.time_series?.map(...) || []]; [toLocaleDateString] stands
    for [ts => new Date(ts).toLocaleDateString()], which depends on the
    locale of the browser. *)
Definition timeSeriesData (toLocaleDateString : string -> string)
    (s : State) : list TimeSeriesRow.t :=
  match results s ≫= ExperimentResults.time_series with
  | Some time_series =>
      map (fun ts =>
             {| TimeSeriesRow.date :=
                  toLocaleDateString (TimeSeriesDataPoint.timestamp ts);
                TimeSeriesRow.variant := TimeSeriesDataPoint.variant_name ts;
                TimeSeriesRow.conversions := TimeSeriesDataPoint.events ts;
                TimeSeriesRow.rate := TimeSeriesDataPoint.conversion_rate ts |})
          time_series
  | None => []
  end.

End Dashboard.

(** ** Reference definitions and scenario data *)

Module Spec.




End Spec.

Module Scenario.

Definition metrics (name : string) (events_by_type : list (string * Z))
  : VariantMetrics.t :=
  {| VariantMetrics.variant_id := 1;
     VariantMetrics.variant_name := name;
     VariantMetrics.total_assignments := 100;
     VariantMetrics.total_events := 20;
     VariantMetrics.unique_users_with_events := 18;
     VariantMetrics.conversion_rate := 12.5%Q;
     VariantMetrics.events_by_type := events_by_type;
     VariantMetrics.events_per_user := 0.2%Q |}.

(** The variant of the "results load success" scenario. *)
Definition metrics_A : VariantMetrics.t :=
  metrics "A" [("click", 15); ("view", 5)].

Definition results_of (variant_metrics : option (list VariantMetrics.t))
  : ExperimentResults.t :=
  {| ExperimentResults.experiment_id := 7;
     ExperimentResults.experiment_name := "Checkout button";
     ExperimentResults.experiment_status := running;
     ExperimentResults.analysis_start := "2024-01-01T00:00:00Z";
     ExperimentResults.analysis_end := "2024-01-31T00:00:00Z";
     ExperimentResults.summary := None;
     ExperimentResults.variant_metrics := variant_metrics;
     ExperimentResults.time_series := Some [];
     ExperimentResults.events_by_type := Some [("click", 15); ("view", 5)];
     ExperimentResults.generated_at := "2024-02-01T00:00:00Z" |}.

Definition showing (r : ExperimentResults.t) : Dashboard.State :=
  Dashboard.setResults (Some r)
    (Dashboard.setIsAuthenticated true Dashboard.initial_state).

Definition control : Variant.t :=
  {| Variant.id := 1; Variant.experiment_id := 7; Variant.name := "A";
     Variant.traffic_allocation := 50%Q; Variant.config := None |}.

Definition treatment : Variant.t :=
  {| Variant.id := 2; Variant.experiment_id := 7; Variant.name := "B";
     Variant.traffic_allocation := 50%Q; Variant.config := None |}.

Definition experiment : Experiment.t :=
  {| Experiment.id := 7; Experiment.name := "Checkout button";
     Experiment.description := None; Experiment.status := running;
     Experiment.created_at := "2023-12-31T00:00:00Z";
     Experiment.started_at := Some "2024-01-01T00:00:00Z";
     Experiment.ended_at := None;
     Experiment.variants := [control; treatment] |}.

Definition experiments_response
  : Api.fetch_outcome ExperimentsListResponse.t :=
  Api.OkResponse
    (Api.Parsed {| ExperimentsListResponse.experiments := Some [experiment];
                   ExperimentsListResponse.total := 1;
                   ExperimentsListResponse.limit := 20;
                   ExperimentsListResponse.offset := 0 |}).

Definition invalid_token_response
  : Api.fetch_outcome ExperimentsListResponse.t :=
  Api.ErrorResponse 401
    (Api.Parsed (JObj [("detail", JStr "Invalid token");
                       ("status_code", JNum 401)])).

(** A page whose login box holds [credential]. *)
Definition page (credential : string) : Dashboard.World :=
  {| Dashboard.api := Api.load None;
     Dashboard.ui := Dashboard.setToken credential Dashboard.initial_state;
     Dashboard.requests := [] |}.

(** What [response.json()] rejects with on an empty body (V8). *)
Definition no_body : Api.json_outcome json :=
  Api.Unparsable (ErrorObj "Unexpected end of JSON input").

(** A proxy answering for a backend that is down. *)
Definition service_unavailable : Api.fetch_outcome json :=
  Api.ErrorResponse 503
    (Api.Parsed (JObj [("detail", JStr "Service Unavailable")])).

Definition invalid_token_body : Api.json_outcome json :=
  Api.Parsed (JObj [("detail", JStr "Invalid token");
                    ("status_code", JNum 401)]).

End Scenario.

(** ** What the page renders, and the events it takes *)

Module Render.
Import Dashboard.

Definition CONFIDENCE_COLORS : gmap string string :=
  {[ "low" := "#f85149"; "medium" := "#d29922"; "high" := "#3fb950";
     "significant" := "#a371f7" ]}.

Module Rule.
Record t : Type := {
  level : string;
  minUsers : string;
  minLift : string;
  color : string
}.
End Rule.

Definition CONFIDENCE_RULES : list Rule.t :=
  [ {| Rule.level := "Low"; Rule.minUsers := "< 30"; Rule.minLift := "Any";
       Rule.color := "#f85149" |};
    {| Rule.level := "Medium"; Rule.minUsers := "100+";
       Rule.minLift := "20%+"; Rule.color := "#d29922" |};
    {| Rule.level := "High"; Rule.minUsers := "500+";
       Rule.minLift := "15%+"; Rule.color := "#3fb950" |};
    {| Rule.level := "Significant"; Rule.minUsers := "1000+";
       Rule.minLift := "10%+"; Rule.color := "#a371f7" |} ].

(** The string a member of the union type is at run time. *)
Definition ConfidenceLevel_string (c : ConfidenceLevel) : string :=
  match c with
  | low => "low" | medium => "medium" | high => "high"
  | significant => "significant"
  end.

(** The confidence badge of the header: its colour,
    [CONFIDENCE_COLORS[confidence_level]], and its text. *)
Definition confidence_badge_color (c : ConfidenceLevel) : option string :=
  CONFIDENCE_COLORS !! ConfidenceLevel_string c.

Definition confidence_badge_text (c : ConfidenceLevel) : string :=
  capitalize (ConfidenceLevel_string c).

(** [if (!isAuthenticated) return <login screen>]. *)
Inductive Screen : Type := LoginScreen | MainScreen.

Definition screen (s : State) : Screen :=
  if isAuthenticated s then MainScreen else LoginScreen.

(** The Connect button: [disabled={loading || apiStatus === 'offline'}]. *)
Definition connect_disabled (s : State) : bool :=
  loading s || match apiStatus s with offline => true | _ => false end.

(** [{error && <div>{error}</div>}] on the login screen: the text shown,
    if any. *)
Definition login_error_banner (s : State) : option string :=
  match error s with
  | Some e => if String.eqb e "" then None else Some e
  | None => None
  end.

(** [{error && !loading && <div>{error}</div>}] on the main screen. *)
Definition main_error_banner (s : State) : option string :=
  match error s with
  | Some e => if String.eqb e "" then None
              else if loading s then None else Some e
  | None => None
  end.

End Render.

Module Session.
Import Dashboard Render.

Definition setShowJson (v : bool) (s : State) : State :=
  {| token := token s; isAuthenticated := isAuthenticated s;
     apiStatus := apiStatus s; experiments := experiments s;
     selectedExperiment := selectedExperiment s; results := results s;
     loading := loading s; error := error s; showJson := v |}.

(** [loadExperimentResults] from its [await] on: the [try] body after the
    call, the [catch] and the [finally]. *)
Definition loadExperimentResults_settle
    (outcome : result ExperimentResults.t) (s : State) : State :=
  setLoading false
    match outcome with
    | Resolved data => setResults (Some data) s
    | Rejected err =>
        setResults None
          (setError (Some (message_or "Failed to load results" err)) s)
    end.

(** What the user can do to the page. Each event names the control it
    comes from; a request it may cause is settled before the next event,
    and [net] is what that request comes back with. *)
Inductive event : Type :=
  | ValueChanged (value : option string)
      (* the token box: [setToken(e.value || '')] *)
  | ConnectClicked (net : Api.fetch_outcome ExperimentsListResponse.t)
      (* the Connect button: [handleLogin] *)
  | SelectionChanged (selectedRowsData : option (list Experiment.t))
      (net : Api.fetch_outcome ExperimentResults.t)
      (* the experiments grid: [handleExperimentSelect] *)
  | JsonToggled.
      (* the raw JSON header: [setShowJson(!showJson)] *)

(** An event reaches its handler only if its control is rendered: the
    token box and the Connect button on the login screen (the button
    unless disabled), the grid on the main screen, the JSON header on the
    main screen once an experiment is selected and results are in. *)
Definition dispatch (w : World) (e : event) : World :=
  match screen (ui w), e with
  | LoginScreen, ValueChanged value =>
      {| api := api w; ui := setToken (default "" value) (ui w);
         requests := requests w |}
  | LoginScreen, ConnectClicked net =>
      if connect_disabled (ui w) then w else handleLogin w net
  | MainScreen, SelectionChanged selectedRowsData net =>
      handleExperimentSelect selectedRowsData w net
  | MainScreen, JsonToggled =>
      match selectedExperiment (ui w), results (ui w) with
      | Some _, Some _ =>
          {| api := api w;
             ui := setShowJson (negb (showJson (ui w))) (ui w);
             requests := requests w |}
      | _, _ => w
      end
  | _, _ => w
  end.

Definition run (w : World) (events : list event) : World :=
  fold_left dispatch events w.




End Session.

Module Wire.

(** How often a code unit occurs in a string. *)
Fixpoint count_char (c : ascii) (s : string) : nat :=
  match s with
  | EmptyString => 0%nat
  | String c' rest =>
      ((if Ascii.eqb c c' then 1 else 0) + count_char c rest)%nat
  end.


(** The code units [urlencode] may put out: letters, digits, and
    [* - . _ + %]. *)
Definition urlencoded_char (c : ascii) : bool :=
  let n := nat_of_ascii c in
  (((48 <=? n) && (n <=? 57)) || ((65 <=? n) && (n <=? 90))
   || ((97 <=? n) && (n <=? 122))
   || (n =? 42) || (n =? 45) || (n =? 46) || (n =? 95)
   || (n =? 43) || (n =? 37))%nat.

Fixpoint all_chars (P : ascii → bool) (s : string) : bool :=
  match s with
  | EmptyString => true
  | String c rest => P c && all_chars P rest
  end.

(** [Array.prototype.join] over strings. *)
Fixpoint join (sep : string) (l : list string) : string :=
  match l with
  | [] => ""
  | [x] => x
  | x :: rest => x +:+ sep +:+ join sep rest
  end.

End Wire.

(** ** The API client: error messages *)

Section Error_messages.
Import Api.

Example trim_example : trim "  ab c  " = "ab c".
Proof. reflexivity. Qed.

Example capitalize_example : capitalize "click" = "Click".
Proof. reflexivity. Qed.

Example to_string_example :
  to_string (JArr [JNum 1; JNull; JStr "x"]) = "1,,x".
Proof. vm_compute. reflexivity. Qed.

Lemma truthy_nonempty_string (d : string) :
  d ≠ "" → truthy (Some (JStr d)) = true.
Proof.
  intros Hd. simpl. destruct (String.eqb_spec d ""); [contradiction | done].
Qed.

(** Whatever the failed response carries, [fetchWithAuth] rejects. *)
Lemma fetchWithAuth_error_rejects {T : Type} m endpoint opts status body :
  ∃ e, snd (@fetchWithAuth T m endpoint opts (ErrorResponse status body))
       = Rejected e.
Proof.
  simpl. destruct (error_message status body); eauto.
Qed.

(** C1, as the specification words it, fails: a 500 without a body is
    reported as "Unknown error", not as "HTTP 500". *)
Lemma C1_no_body_is_unknown_error :
  snd (getExperiments (load None) None
         (ErrorResponse 500 Scenario.no_body))
    = Rejected (ErrorObj "Unknown error")
  ∧ snd (getExperiments (load None) None
           (ErrorResponse 500 Scenario.no_body))
    ≠ Rejected (ErrorObj "HTTP 500").
Proof. split; [reflexivity | discriminate]. Qed.

(** C1 (amended). On a response whose status is not a success,
    [fetchWithAuth] fails with the server's [detail] when the body parses
    to an object with a non-empty string [detail]; with "Unknown error"
    when the body is absent or does not parse; and with "HTTP <status>"
    when the body parses to an object whose [detail] is missing or falsy.
    A 401 with [{detail: "Invalid token", status_code: 401}] fails with
    "Invalid token". *)
Theorem C1_error_message (T : Type) m endpoint opts status body :
  let outcome :=
    snd (@fetchWithAuth T m endpoint opts (ErrorResponse status body)) in
  (∀ fields d,
      body = Parsed (JObj fields) →
      own_property fields "detail" = Some (JStr d) → d ≠ "" →
      outcome = Rejected (ErrorObj d))
  ∧ (∀ e, body = Unparsable e →
          outcome = Rejected (ErrorObj "Unknown error"))
  ∧ (∀ fields,
      body = Parsed (JObj fields) →
      truthy (own_property fields "detail") = false →
      outcome = Rejected (ErrorObj ("HTTP " +:+ pretty status)))
  ∧ (body = Scenario.invalid_token_body →
      outcome = Rejected (ErrorObj "Invalid token")).
Proof.
  cbv zeta. repeat split.
  - intros fields d -> Hdetail Hd. simpl. unfold error_message. simpl.
    rewrite Hdetail, (truthy_nonempty_string d Hd). reflexivity.
  - intros e ->. reflexivity.
  - intros fields -> Hfalsy. simpl. unfold error_message. simpl.
    rewrite Hfalsy. reflexivity.
  - intros ->. reflexivity.
Qed.

Lemma C1_error_message_witness :
  snd (getExperiments (load None) None
         (ErrorResponse 401 Scenario.invalid_token_body))
    = Rejected (ErrorObj "Invalid token")
  ∧ snd (getExperiments (load None) None
           (ErrorResponse 404 (Parsed (JObj [("status_code", JNum 404)]))))
    = Rejected (ErrorObj "HTTP 404").
Proof.
  split.
  - apply (proj1 (C1_error_message ExperimentsListResponse.t (load None)
                    "/experiments" ∅ 401 Scenario.invalid_token_body)
             [("detail", JStr "Invalid token"); ("status_code", JNum 401)]
             "Invalid token");
      [reflexivity | reflexivity | discriminate].
  - apply (proj1 (proj2 (proj2
             (C1_error_message ExperimentsListResponse.t (load None)
                "/experiments" ∅ 404
                (Parsed (JObj [("status_code", JNum 404)])))))
             [("status_code", JNum 404)]);
      reflexivity.
Defined.

End Error_messages.

(** ** The chart view models *)

Section View_models.
Import Dashboard.

(** C3. The conversion view has one row per entry of
    [results.variant_metrics], in the same order, holding the variant's
    name, its [conversion_rate] as received, its [total_assignments] and
    its [total_events]; on the scenario's single variant "A" it is
    [[{variant: "A", rate: 12.5, assignments: 100, events: 20}]]. *)
Theorem C3_conversion_view s R variant_metrics :
  results s = Some R →
  ExperimentResults.variant_metrics R = Some variant_metrics →
  length (conversionData s) = length variant_metrics
  ∧ (∀ (i : nat) vm,
        variant_metrics !! i = Some vm →
        conversionData s !! i
        = Some {| ConversionRow.variant := VariantMetrics.variant_name vm;
                  ConversionRow.rate := VariantMetrics.conversion_rate vm;
                  ConversionRow.assignments :=
                    VariantMetrics.total_assignments vm;
                  ConversionRow.events := VariantMetrics.total_events vm |})
  ∧ (variant_metrics = [Scenario.metrics_A] →
     conversionData s
     = [ {| ConversionRow.variant := "A"; ConversionRow.rate := 12.5%Q;
            ConversionRow.assignments := 100;
            ConversionRow.events := 20 |} ]).
Proof.
  intros HR Hvm. unfold conversionData. rewrite HR. simpl. rewrite Hvm.
  split; [apply length_map |]. split.
  - intros i vm Hi. rewrite list_lookup_fmap, Hi. reflexivity.
  - intros ->. reflexivity.
Qed.

Lemma C3_conversion_view_witness :
  conversionData (Scenario.showing
                    (Scenario.results_of (Some [Scenario.metrics_A])))
  = [ {| ConversionRow.variant := "A"; ConversionRow.rate := 12.5%Q;
         ConversionRow.assignments := 100; ConversionRow.events := 20 |} ].
Proof.
  apply (proj2 (proj2
           (C3_conversion_view
              (Scenario.showing
                 (Scenario.results_of (Some [Scenario.metrics_A])))
              (Scenario.results_of (Some [Scenario.metrics_A]))
              [Scenario.metrics_A] eq_refl eq_refl))).
  reflexivity.
Defined.

(** C7. With experiment E selected, the allocation view has as many rows
    as E has variants, row i being the name and [traffic_allocation] of
    variant i; it does not change with the results snapshot; and it is
    empty when no experiment is selected. *)
Theorem C7_allocation_view (s : State) :
  match selectedExperiment s with
  | Some E =>
      length (variantAllocationData s) = length (Experiment.variants E)
      ∧ ∀ (i : nat) v,
          Experiment.variants E !! i = Some v →
          variantAllocationData s !! i
          = Some {| AllocationRow.variant := Variant.name v;
                    AllocationRow.allocation := Variant.traffic_allocation v |}
  | None => variantAllocationData s = []
  end
  ∧ ∀ r : option ExperimentResults.t,
      variantAllocationData (setResults r s) = variantAllocationData s.
Proof.
  split; [| reflexivity].
  unfold variantAllocationData. destruct (selectedExperiment s) as [E|].
  - split; [apply length_map |].
    intros i v Hi. rewrite list_lookup_fmap, Hi. reflexivity.
  - reflexivity.
Qed.

Lemma C7_allocation_view_witness :
  variantAllocationData
    (setSelectedExperiment (Some Scenario.experiment) initial_state)
    !! 1%nat
  = Some {| AllocationRow.variant := "B";
            AllocationRow.allocation := 50%Q |}.
Proof.
  exact (proj2 (proj1 (C7_allocation_view
                         (setSelectedExperiment (Some Scenario.experiment)
                            initial_state)))
           1%nat Scenario.treatment eq_refl).
Defined.

Lemma collect_eventTypes_no_keys (variant_metrics : list VariantMetrics.t) :
  (∀ vm, vm ∈ variant_metrics → VariantMetrics.events_by_type vm = []) →
  collect_eventTypes variant_metrics = [].
Proof.
  intros Hempty. unfold collect_eventTypes.
  assert (Hacc : ∀ acc : list string,
    fold_left
      (fun eventTypes vm =>
         fold_left (fun eventTypes type => Set_add type eventTypes)
                   (map fst (VariantMetrics.events_by_type vm)) eventTypes)
      variant_metrics acc = acc); [| apply Hacc].
  induction variant_metrics as [|vm rest IH]; intros acc.
  - reflexivity.
  - simpl. rewrite (Hempty vm) by left. simpl. apply IH.
    intros vm' Hin. apply Hempty. by right.
Qed.

(** C8. Each view model is the empty sequence on absent or empty input:
    without a selected experiment or with an experiment without variants
    (allocation); without a results snapshot (all four others); and with
    results whose [variant_metrics], [events_by_type] or [time_series] is
    missing or empty, or whose variants all have an empty
    [events_by_type]. *)
Theorem C8_views_of_absent_input
    (toLocaleDateString : string → string) (s : State) :
  (selectedExperiment s = None → variantAllocationData s = [])
  ∧ (∀ E, selectedExperiment s = Some E → Experiment.variants E = [] →
          variantAllocationData s = [])
  ∧ (results s = None →
     conversionData s = [] ∧ eventsByTypeData s = []
     ∧ variantEventsData s = [] ∧ timeSeriesData toLocaleDateString s = [])
  ∧ (∀ R, results s = Some R →
       (ExperimentResults.variant_metrics R = None
        ∨ ExperimentResults.variant_metrics R = Some [] →
        conversionData s = [] ∧ variantEventsData s = [])
       ∧ (∀ variant_metrics,
            ExperimentResults.variant_metrics R = Some variant_metrics →
            (∀ vm, vm ∈ variant_metrics →
                   VariantMetrics.events_by_type vm = []) →
            variantEventsData s = [])
       ∧ (ExperimentResults.events_by_type R = None
          ∨ ExperimentResults.events_by_type R = Some [] →
          eventsByTypeData s = [])
       ∧ (ExperimentResults.time_series R = None
          ∨ ExperimentResults.time_series R = Some [] →
          timeSeriesData toLocaleDateString s = [])).
Proof.
  unfold variantAllocationData, conversionData, eventsByTypeData,
    variantEventsData, timeSeriesData.
  split; [intros -> ; reflexivity |].
  split; [intros E -> -> ; reflexivity |].
  split; [intros -> ; repeat split |].
  intros R ->. simpl. split; [| split; [| split]].
  - intros [-> | ->]; split; reflexivity.
  - intros variant_metrics -> Hempty.
    rewrite (collect_eventTypes_no_keys variant_metrics Hempty).
    reflexivity.
  - intros [-> | ->]; reflexivity.
  - intros [-> | ->]; reflexivity.
Qed.

Lemma C8_views_of_absent_input_witness :
  variantAllocationData initial_state = []
  ∧ conversionData initial_state = []
  ∧ eventsByTypeData initial_state = []
  ∧ variantEventsData initial_state = []
  ∧ timeSeriesData (fun ts => ts) initial_state = []
  ∧ variantEventsData
      (Scenario.showing
         (Scenario.results_of (Some [Scenario.metrics "A" []]))) = [].
Proof.
  pose proof (C8_views_of_absent_input (fun ts => ts) initial_state)
    as (Hallocation & _ & Hresults & _).
  destruct (Hresults eq_refl) as (Hc & He & Hm & Ht).
  pose proof (C8_views_of_absent_input (fun ts => ts)
                (Scenario.showing
                   (Scenario.results_of (Some [Scenario.metrics "A" []]))))
    as (_ & _ & _ & Hpresent).
  destruct (Hpresent _ eq_refl) as (_ & Hkeys & _).
  refine (conj (Hallocation eq_refl)
            (conj Hc (conj He (conj Hm (conj Ht _))))).
  apply (Hkeys [Scenario.metrics "A" []] eq_refl).
  intros vm Hin. apply list_elem_of_singleton in Hin. rewrite Hin.
  reflexivity.
Defined.

End View_models.

(** ** The load controller *)

Section Controller.
Import Api Dashboard.


Lemma handleLogin_submitted w net :
  trim (token (ui w)) ≠ "" →
  api (handleLogin w net) = setAuthToken (token (ui w)) (api w)
  ∧ requests (handleLogin w net)
    = requests w
        ++ [fst (getExperiments (setAuthToken (token (ui w)) (api w))
                   None net)].
Proof.
  intros Hsome. unfold handleLogin.
  destruct (String.eqb_spec (trim (token (ui w))) ""); [contradiction |].
  split; reflexivity.
Qed.

Lemma trim_nonblank_nonempty (s : string) : trim s ≠ "" → s ≠ "".
Proof. intros Hs ->. apply Hs. reflexivity. Qed.

Lemma bearer_header m opts token :
  authToken m = Some token → token ≠ "" →
  request_headers m opts !! "Authorization" = Some ("Bearer " +:+ token).
Proof.
  intros Hm Htoken. unfold request_headers. rewrite Hm.
  destruct (String.eqb_spec token ""); [contradiction |].
  apply lookup_insert_eq.
Qed.





(** C10. A login whose credential passes validation writes the credential
    to the module's [authToken] before it calls [getExperiments], so the
    request already carries it; the credential stays there when the call
    fails; and every later request of the client is sent with it as
    [Authorization: Bearer <credential>]. *)
Theorem C10_token_survives_failed_login w net :
  trim (token (ui w)) ≠ "" →
  let credential := token (ui w) in
  let bearer := Some ("Bearer " +:+ credential) in
  let w' := handleLogin w net in
  (∃ request,
      requests w' = requests w ++ [request]
      ∧ headers request !! "Authorization" = bearer)
  ∧ (∀ err,
       snd (getExperiments (setAuthToken credential (api w)) None net)
       = Rejected err →
       isAuthenticated (ui w') = false
       ∧ error (ui w') = Some (message_or "Authentication failed" err)
       ∧ getAuthToken (api w') = Some credential)
  ∧ (∀ (T : Type) endpoint opts (later : fetch_outcome T),
       headers (fst (fetchWithAuth (api w') endpoint opts later))
         !! "Authorization" = bearer)
  ∧ (∀ params later,
       headers (fst (getExperiments (api w') params later))
         !! "Authorization" = bearer)
  ∧ (∀ id later,
       headers (fst (getExperiment (api w') id later))
         !! "Authorization" = bearer)
  ∧ (∀ id params later,
       headers (fst (getExperimentResults (api w') id params later))
         !! "Authorization" = bearer)
  ∧ (∀ later,
       headers (fst (getEventTypes (api w') later))
         !! "Authorization" = bearer).
Proof.
  intros Hsome. cbv zeta.
  pose proof (trim_nonblank_nonempty _ Hsome) as Hnonempty.
  destruct (handleLogin_submitted w net Hsome) as [Hapi Hlog].
  assert (Hlater : ∀ opts,
    request_headers (api (handleLogin w net)) opts !! "Authorization"
    = Some ("Bearer " +:+ token (ui w))).
  { intros opts. rewrite Hapi. by apply bearer_header. }
  split; [| split; [| split; [| split; [| split; [| split]]]]].
  - eexists. split; [exact Hlog |]. simpl. by apply bearer_header.
  - intros err Hfailed. rewrite Hapi. unfold handleLogin.
    destruct (String.eqb_spec (trim (token (ui w))) ""); [contradiction |].
    unfold getExperiments in *. simpl in *. rewrite Hfailed. done.
  - intros T endpoint opts later. apply Hlater.
  - intros params later. apply Hlater.
  - intros id later. apply Hlater.
  - intros id params later. apply Hlater.
  - intros later. apply Hlater.
Qed.

Lemma C10_token_survives_failed_login_witness :
  getAuthToken
    (api (handleLogin (Scenario.page "expired")
            Scenario.invalid_token_response))
  = Some "expired"
  ∧ error (ui (handleLogin (Scenario.page "expired")
                 Scenario.invalid_token_response))
    = Some "Invalid token"
  ∧ headers
      (fst (getEventTypes
              (api (handleLogin (Scenario.page "expired")
                      Scenario.invalid_token_response))
              (NoResponse NonError)))
      !! "Authorization"
    = Some "Bearer expired".
Proof.
  assert (Hvalid : trim (token (ui (Scenario.page "expired"))) ≠ "")
    by discriminate.
  pose proof (C10_token_survives_failed_login (Scenario.page "expired")
                Scenario.invalid_token_response Hvalid)
    as (_ & Hfailed & _ & _ & _ & _ & Hlater).
  destruct (Hfailed (ErrorObj "Invalid token") eq_refl)
    as (_ & Herror & Hstored).
  exact (conj Hstored (conj Herror (Hlater (NoResponse NonError)))).
Defined.

(** The health indicator after the mount effect: "online" exactly when a
    response arrived whose body parsed, whatever its status. *)
Lemma on_mount_apiStatus w net :
  apiStatus (ui (on_mount w net))
  = match net with
    | NoResponse _ => offline
    | ErrorResponse _ (Parsed _) => online
    | ErrorResponse _ (Unparsable _) => offline
    | OkResponse (Parsed _) => online
    | OkResponse (Unparsable _) => offline
    end.
Proof. destruct net as [e | status [v | e] | [v | e]]; reflexivity. Qed.

(** Where [fetchWithAuth] fails the call, the probe does not. *)
Lemma error_status_fails_fetchWithAuth m :
  snd (fetchWithAuth m "/health" ∅ Scenario.service_unavailable)
  = Rejected (ErrorObj "Service Unavailable").
Proof. reflexivity. Qed.

(** C9 does not hold of the code: a 503 answer with a JSON body is a
    failed probe, and the indicator goes to "online"; so it does for
    every status, as soon as the body parses. *)
Theorem C9_error_status_shows_online :
  apiStatus (ui (on_mount (initial_world None) Scenario.service_unavailable))
  = online
  ∧ ∀ w status body,
      apiStatus (ui (on_mount w (ErrorResponse status (Parsed body))))
      = online.
Proof.
  split.
  - reflexivity.
  - intros w status body. apply (on_mount_apiStatus w).
Qed.

End Controller.

(** ** The API client: query strings *)

Section Query_strings.
Import Api.

(** [searchParams.get(k)] after [searchParams.set(name, value)]. *)
Lemma own_property_filter_other (name k : string) (sp : URLSearchParams) :
  k ≠ name →
  own_property (filter (fun p => negb (String.eqb (fst p) name)) sp) k
  = own_property sp k.
Proof.
  intros Hk. induction sp as [|[n v] rest IH]; [reflexivity |].
  rewrite filter_cons. simpl.
  destruct (String.eqb_spec n name) as [-> | Hn]; simpl.
  - destruct (String.eqb_spec name k); [congruence | exact IH].
  - destruct (String.eqb_spec n k); [reflexivity | exact IH].
Qed.

Lemma own_property_set (name value k : string) (sp : URLSearchParams) :
  own_property (searchParams_set name value sp) k
  = if String.eqb name k then Some value else own_property sp k.
Proof.
  induction sp as [|[n v] rest IH]; simpl.
  - reflexivity.
  - destruct (String.eqb_spec n name) as [-> | Hn]; simpl.
    + destruct (String.eqb_spec name k) as [-> | Hk]; [reflexivity |].
      apply own_property_filter_other. congruence.
    + rewrite IH. destruct (String.eqb_spec n k) as [-> | Hk].
      * destruct (String.eqb_spec name k); [congruence | reflexivity].
      * reflexivity.
Qed.
















End Query_strings.

(** ** The variant × event-type matrix *)

Section Matrix.
Import Dashboard Spec.















(** Two variants of one name share a column, which holds the later
    one's count. *)
Example matrix_shared_variant_name :
  ∃ row,
    variantEventsData
      (Scenario.showing
         (Scenario.results_of
            (Some [Scenario.metrics "A" [("click", 5)];
                   Scenario.metrics "A" [("click", 9)]])))
    = [row]
    ∧ row !! "A" = Some (CellNumber 9).
Proof. eexists. split; reflexivity. Qed.

(** An event type named like a member of [Object.prototype] reads that
    member from a variant without such events. *)
Example matrix_inherited_member :
  ∃ row,
    variantEventsData
      (Scenario.showing
         (Scenario.results_of
            (Some [Scenario.metrics "A" [("constructor", 5)];
                   Scenario.metrics "B" []])))
    = [row]
    ∧ row !! "A" = Some (CellNumber 5)
    ∧ row !! "B" = Some (CellInherited "constructor").
Proof. eexists. split; [reflexivity |]. split; reflexivity. Qed.



End Matrix.

(** ** More on the API client *)

Section Client.
Import Api Wire.

(** The base URL is never empty: an unset or empty
    [NEXT_PUBLIC_API_URL] falls back to the built-in address, any other
    value is taken as it is; and no token is stored at load. *)
Theorem API_BASE_URL_never_empty (NEXT_PUBLIC_API_URL : option string) :
  API_BASE_URL (load NEXT_PUBLIC_API_URL) ≠ ""
  ∧ (∀ u, NEXT_PUBLIC_API_URL = Some u → u ≠ "" →
          API_BASE_URL (load NEXT_PUBLIC_API_URL) = u)
  ∧ (NEXT_PUBLIC_API_URL = None ∨ NEXT_PUBLIC_API_URL = Some "" →
     API_BASE_URL (load NEXT_PUBLIC_API_URL) = default_base_url)
  ∧ getAuthToken (load NEXT_PUBLIC_API_URL) = None.
Proof.
  split; [| split; [| split]].
  - destruct NEXT_PUBLIC_API_URL as [u|]; simpl; [| discriminate].
    destruct (String.eqb_spec u ""); [discriminate | done].
  - intros u -> Hu. simpl.
    destruct (String.eqb_spec u ""); [contradiction | reflexivity].
  - intros [-> | ->]; reflexivity.
  - reflexivity.
Qed.

Lemma API_BASE_URL_never_empty_witness :
  API_BASE_URL (load (Some "http://localhost:8000"))
  = "http://localhost:8000"
  ∧ API_BASE_URL (load (Some "")) = default_base_url.
Proof.
  split.
  - apply (proj1 (proj2 (API_BASE_URL_never_empty
                           (Some "http://localhost:8000")))
             "http://localhost:8000" eq_refl).
    discriminate.
  - apply (proj1 (proj2 (proj2 (API_BASE_URL_never_empty (Some ""))))).
    right. reflexivity.
Defined.

(** Every request of [fetchWithAuth] as the client calls it (without
    options) carries the JSON content type, carries the Authorization
    header exactly when a non-empty token is stored, then as
    "Bearer <token>", and carries no other header. A stored empty token
    counts as none. *)
Theorem sent_headers (T : Type) m endpoint (net : fetch_outcome T) :
  let sent := headers (fst (fetchWithAuth m endpoint ∅ net)) in
  sent !! "Content-Type" = Some "application/json"
  ∧ (is_Some (sent !! "Authorization")
     ↔ ∃ t, authToken m = Some t ∧ t ≠ "")
  ∧ (∀ t, authToken m = Some t → t ≠ "" →
          sent !! "Authorization" = Some ("Bearer " +:+ t))
  ∧ (∀ k, is_Some (sent !! k) → k = "Content-Type" ∨ k = "Authorization").
Proof.
  cbv zeta. simpl. unfold request_headers.
  rewrite (left_id_L ∅ (∪)).
  destruct (authToken m) as [t|]; [destruct (String.eqb_spec t "") |].
  - subst t. split; [done |]. split; [| split].
    + split; [by intros [? [=]] | by intros (t & [= <-] & Ht)].
    + by intros t [= <-] Ht.
    + intros k [v Hk]. left.
      by apply lookup_singleton_Some in Hk as [<- _].
  - split; [by rewrite lookup_insert_ne |]. split; [| split].
    + rewrite lookup_insert_eq. split; [eauto | eauto].
    + intros t' [= <-] _. apply lookup_insert_eq.
    + intros k [v Hk]. apply lookup_insert_Some in Hk as [[<- _] | [_ Hk]].
      * by right.
      * left. by apply lookup_singleton_Some in Hk as [<- _].
  - split; [done |]. split; [| split].
    + split; [by intros [? [=]] | by intros (t & [=] & _)].
    + by intros t [=].
    + intros k [v Hk]. left.
      by apply lookup_singleton_Some in Hk as [<- _].
Qed.

Lemma sent_headers_witness :
  headers (fst (getEventTypes (setAuthToken "secret" (load None))
                  (NoResponse NonError)))
    !! "Authorization"
  = Some "Bearer secret".
Proof.
  apply (proj1 (proj2 (proj2
           (sent_headers _ (setAuthToken "secret" (load None))
              "/events/types" (NoResponse NonError))))
           "secret" eq_refl).
  discriminate.
Defined.



(** [fetchWithAuth] resolves exactly when the response is a success whose
    body parses, and then to that body unchanged; when no response
    arrives, or the body of a success does not parse, it rejects with
    what [fetch] or [json()] rejected with; and on an error status it
    rejects with an Error object, whatever the body. *)
Theorem fetchWithAuth_outcome (T : Type) m endpoint opts
    (net : fetch_outcome T) :
  let outcome := snd (fetchWithAuth m endpoint opts net) in
  (∀ v, outcome = Resolved v ↔ net = OkResponse (Parsed v))
  ∧ (∀ e, net = NoResponse e ∨ net = OkResponse (Unparsable e) →
          outcome = Rejected e)
  ∧ (∀ status body, net = ErrorResponse status body →
       ∃ message, outcome = Rejected (ErrorObj message)).
Proof.
  cbv zeta. split; [| split].
  - intros v. destruct net as [e | status body | [v' | e]]; simpl.
    + split; discriminate.
    + destruct (error_message status body); split; discriminate.
    + split; congruence.
    + split; discriminate.
  - intros e [-> | ->]; reflexivity.
  - intros status body ->. simpl. unfold error_message.
    destruct (get_property _ "detail") as [detail | e] eqn:Hget; eauto.
    destruct body as [[] |]; simpl in Hget; try discriminate.
    injection Hget as <-. eauto.
Qed.

Lemma fetchWithAuth_outcome_witness :
  snd (getExperiments (load None) None Scenario.experiments_response)
  = Resolved
      {| ExperimentsListResponse.experiments := Some [Scenario.experiment];
         ExperimentsListResponse.total := 1;
         ExperimentsListResponse.limit := 20;
         ExperimentsListResponse.offset := 0 |}.
Proof.
  apply (proj1 (fetchWithAuth_outcome _ (load None) "/experiments" ∅
                  Scenario.experiments_response)).
  reflexivity.
Defined.

(** An error body that is JSON but not an object (a number, a string, a
    boolean, an array) has no [detail], so the call fails with
    "HTTP <status>"; the body [null] makes reading [detail] throw, and
    the call fails with that TypeError instead. *)
Theorem error_body_not_an_object (T : Type) m endpoint opts status
    (v : json) :
  let outcome :=
    snd (@fetchWithAuth T m endpoint opts
           (ErrorResponse status (Parsed v))) in
  match v with
  | JObj _ => True
  | JNull => outcome = Rejected (ErrorObj (null_property_message "detail"))
  | _ => outcome = Rejected (ErrorObj ("HTTP " +:+ pretty status))
  end.
Proof. destruct v; reflexivity || exact I. Qed.

(** [Array.prototype.toString] is a join over the elements. *)
Lemma to_string_array (items : list json) :
  to_string (JArr items)
  = join "," (map (fun x => match x with JNull => "" | _ => to_string x end)
                  items).
Proof.
  induction items as [|x rest IH]; [reflexivity |].
  destruct rest as [|y rest]; [reflexivity |].
  simpl in IH |- *. by rewrite IH.
Qed.

(** A [detail] that is an array is truthy and is turned into a string by
    joining: over objects, as validation errors come, the message is
    "[object Object]" once per element, separated by commas; for the empty
    array the message is the empty string. *)
Theorem error_detail_array (T : Type) m endpoint opts status
    (fields : list (string * json)) (objects : list (list (string * json))) :
  own_property fields "detail" = Some (JArr (JObj <$> objects)) →
  snd (@fetchWithAuth T m endpoint opts
         (ErrorResponse status (Parsed (JObj fields))))
  = Rejected
      (ErrorObj (join "," (replicate (length objects) "[object Object]"))).
Proof.
  intros Hdetail. simpl. unfold error_message. simpl. rewrite Hdetail.
  cbn [truthy]. rewrite to_string_array. do 2 f_equal.
  clear. induction objects as [|o rest IH]; [reflexivity |].
  cbn [fmap list_fmap map length replicate join] in *.
  destruct rest as [|o' rest]; [reflexivity |].
  cbn [fmap list_fmap map length replicate join] in *. by rewrite IH.
Qed.

Lemma error_detail_array_witness :
  snd (getExperiments (load None) None
         (ErrorResponse 422
            (Parsed (JObj [("detail",
                            JArr [JObj [("msg", JStr "field required")];
                                  JObj [("msg", JStr "not an integer")]])]))))
  = Rejected (ErrorObj "[object Object],[object Object]")
  ∧ snd (getExperiments (load None) None
           (ErrorResponse 422 (Parsed (JObj [("detail", JArr [])]))))
    = Rejected (ErrorObj "").
Proof.
  split.
  - exact (error_detail_array ExperimentsListResponse.t (load None)
             "/experiments" ∅ 422
             [("detail",
               JArr [JObj [("msg", JStr "field required")];
                     JObj [("msg", JStr "not an integer")]])]
             [[("msg", JStr "field required")];
              [("msg", JStr "not an integer")]] eq_refl).
  - exact (error_detail_array ExperimentsListResponse.t (load None)
             "/experiments" ∅ 422 [("detail", JArr [])] [] eq_refl).
Defined.

(** After [searchParams.set(name, value)] exactly one pair is named
    [name], reading [name] gives [value], the pairs of every other name
    are the ones there were, in their order, and the list has grown by at
    most one. *)
Theorem searchParams_set_one_pair (name value : string)
    (sp : URLSearchParams) :
  let sp' := searchParams_set name value sp in
  length (filter (fun p => fst p = name) sp') = 1%nat
  ∧ own_property sp' name = Some value
  ∧ filter (fun p => fst p ≠ name) sp' = filter (fun p => fst p ≠ name) sp
  ∧ (length sp' ≤ S (length sp))%nat.
Proof.
  cbv zeta.
  assert (Hgone : ∀ l : URLSearchParams,
    filter (fun p => fst p = name)
      (filter (fun p => negb (String.eqb (fst p) name)) l) = []).
  { intros l. induction l as [|[n v] rest IH]; [reflexivity |].
    rewrite filter_cons. simpl.
    destruct (String.eqb_spec n name); simpl; [exact IH |].
    by rewrite filter_cons_False. }
  assert (Hkept : ∀ l : URLSearchParams,
    filter (fun p => negb (String.eqb (fst p) name)) l
    = filter (fun p => fst p ≠ name) l).
  { intros l. apply list_filter_iff. intros [n v]. simpl.
    destruct (String.eqb_spec n name); simpl; naive_solver. }
  split; [| split; [| split]].
  - induction sp as [|[n v] rest IH]; [simpl |].
    + by rewrite filter_cons_True.
    + simpl. destruct (String.eqb_spec n name) as [-> | Hn].
      * rewrite filter_cons_True by done. by rewrite Hgone.
      * by rewrite filter_cons_False.
  - rewrite own_property_set, String.eqb_refl. reflexivity.
  - induction sp as [|[n v] rest IH]; [simpl |].
    + by rewrite filter_cons_False by (simpl; tauto).
    + simpl. destruct (String.eqb_spec n name) as [-> | Hn].
      * rewrite !filter_cons_False by (simpl; tauto).
        rewrite Hkept. apply list_filter_filter_l. tauto.
      * rewrite !filter_cons_True by done. by rewrite IH.
  - induction sp as [|[n v] rest IH]; [simpl; lia |].
    simpl. destruct (String.eqb n name); simpl; [| lia].
    pose proof (length_filter
                  (fun p : string * string =>
                     negb (String.eqb (fst p) name)) rest).
    lia.
Qed.

Lemma count_char_app (c : ascii) (a b : string) :
  count_char c (a +:+ b) = (count_char c a + count_char c b)%nat.
Proof.
  induction a as [|c' a IH]; [reflexivity |]. simpl. rewrite IH. lia.
Qed.

Lemma all_chars_app (P : ascii → bool) (a b : string) :
  all_chars P (a +:+ b) = all_chars P a && all_chars P b.
Proof.
  induction a as [|c' a IH]; [reflexivity |]. simpl.
  by rewrite IH, andb_assoc.
Qed.

Lemma urlencode_char_plain (c : ascii) :
  all_chars urlencoded_char (urlencode_char c) = true
  ∧ count_char "&" (urlencode_char c) = 0%nat
  ∧ count_char "=" (urlencode_char c) = 0%nat.
Proof.
  destruct c as [[|] [|] [|] [|] [|] [|] [|] [|]];
    (split; [reflexivity | split; reflexivity]).
Qed.

Lemma urlencode_plain (s : string) :
  all_chars urlencoded_char (urlencode s) = true
  ∧ count_char "&" (urlencode s) = 0%nat
  ∧ count_char "=" (urlencode s) = 0%nat.
Proof.
  induction s as [|c rest (IHsafe & IHamp & IHeq)]; [done |].
  destruct (urlencode_char_plain c) as (Hsafe & Hamp & Heq).
  simpl. rewrite all_chars_app, !count_char_app.
  rewrite Hsafe, IHsafe, Hamp, IHamp, Heq, IHeq. done.
Qed.

(** The serialized query is unambiguous: a name or value is written with
    letters, digits and [* - . _ + %] only, so whatever the parameters
    hold, the query of n pairs has exactly n "=" and, between the pairs,
    n - 1 "&". A value cannot bring in a parameter of its own. *)
Theorem searchParams_toString_separators (sp : URLSearchParams) :
  (∀ s, all_chars urlencoded_char (urlencode s) = true)
  ∧ count_char "=" (searchParams_toString sp) = length sp
  ∧ count_char "&" (searchParams_toString sp) = pred (length sp).
Proof.
  split; [intros s; apply urlencode_plain |].
  induction sp as [|[n v] rest [IHeq IHamp]]; [done |].
  destruct (urlencode_plain n) as (_ & Hamp_n & Heq_n).
  destruct (urlencode_plain v) as (_ & Hamp_v & Heq_v).
  destruct rest as [|p rest].
  - cbn [searchParams_toString length pred].
    rewrite !count_char_app, Hamp_n, Heq_n, Hamp_v, Heq_v. done.
  - change (searchParams_toString ((n, v) :: p :: rest))
      with (urlencode n +:+ "=" +:+ urlencode v +:+ "&"
              +:+ searchParams_toString (p :: rest)).
    rewrite !count_char_app, Hamp_n, Heq_n, Hamp_v, Heq_v, IHeq, IHamp.
    simpl. split; lia.
Qed.

Lemma set_if_string_cases (name : string) (p : option string)
    (sp : URLSearchParams) :
  set_if_string name p sp = sp
  ∨ ∃ v, set_if_string name p sp = searchParams_set name v sp.
Proof.
  unfold set_if_string. destruct p as [s|]; [| by left].
  destruct (String.eqb s ""); [by left | right; eauto].
Qed.

Lemma set_if_number_cases (name : string) (p : option Z)
    (sp : URLSearchParams) :
  set_if_number name p sp = sp
  ∨ ∃ v, set_if_number name p sp = searchParams_set name v sp.
Proof.
  unfold set_if_number. destruct p as [n|]; [| by left].
  destruct (n =? 0); [by left | right; eauto].
Qed.

Lemma set_if_true_cases (name value : string) (p : option bool)
    (sp : URLSearchParams) :
  set_if_true name value p sp = sp
  ∨ set_if_true name value p sp = searchParams_set name value sp.
Proof. destruct p as [[|]|]; simpl; auto. Qed.

(** Splits on whether the parameter written under [name] was set. *)
Ltac case_set name :=
  match goal with
  | |- context [set_if_string name ?p ?sp] =>
      destruct (set_if_string_cases name p sp) as [-> | [? ->]]
  | |- context [set_if_number name ?p ?sp] =>
      destruct (set_if_number_cases name p sp) as [-> | [? ->]]
  | |- context [set_if_true name ?v ?p ?sp] =>
      destruct (set_if_true_cases name v p sp) as [-> | ->]
  end.

Ltac in_order :=
  simpl;
  repeat first [ apply sublist_nil_l | apply sublist_skip
               | apply sublist_cons ].

(** The keys of a query come in the order the code sets them, each at
    most once: status, limit, offset for the list; start_date, end_date,
    event_types, format, include_time_series, time_series_granularity for
    the results. *)
Theorem query_keys_in_order
    (lp : option ListParams.t) (rp : option ResultsParams.t) :
  map fst (getExperiments_searchParams lp)
    `sublist_of` ["status"; "limit"; "offset"]
  ∧ map fst (getExperimentResults_searchParams rp)
      `sublist_of` ["start_date"; "end_date"; "event_types"; "format";
                    "include_time_series"; "time_series_granularity"].
Proof.
  split.
  - unfold getExperiments_searchParams. cbv zeta.
    case_set "status"; case_set "limit"; case_set "offset"; in_order.
  - unfold getExperimentResults_searchParams. cbv zeta.
    case_set "start_date"; case_set "end_date"; case_set "event_types";
      case_set "format"; case_set "include_time_series";
      case_set "time_series_granularity"; in_order.
Qed.

End Client.

(** ** More on the controller *)

Section Handlers.
Import Api Dashboard Render Session.

(** The health probe goes to [<base>/health] without any header, also
    when a token is stored; it changes nothing but the indicator, which
    it always takes out of "checking": to "online" when a response
    arrived whose body parsed, of whatever status, and to "offline"
    otherwise. *)
Theorem health_probe w (net : fetch_outcome json) :
  let w' := on_mount w net in
  requests w'
  = requests w
      ++ [ {| url := API_BASE_URL (api w) +:+ "/health"; headers := ∅ |} ]
  ∧ api w' = api w
  ∧ ui w' = setApiStatus (apiStatus (ui w')) (ui w)
  ∧ apiStatus (ui w') ≠ checking
  ∧ (apiStatus (ui w') = online
     ↔ ∃ v, net = OkResponse (Parsed v)
            ∨ ∃ status, net = ErrorResponse status (Parsed v))
  ∧ (apiStatus (ui w') = offline
     ↔ ∃ e, net = NoResponse e ∨ net = OkResponse (Unparsable e)
            ∨ ∃ status, net = ErrorResponse status (Unparsable e)).
Proof.
  cbv zeta.
  destruct net as [e | status [v | e] | [v | e]]; simpl;
    (split; [reflexivity |]); (split; [reflexivity |]);
    (split; [reflexivity |]); (split; [discriminate |]); split; split;
    try discriminate; try naive_solver.
Qed.


(** A login leaves the selection, the results, the typed token, the
    health indicator and the JSON switch alone and ends with [loading]
    off. When it fails, the experiment list it had stays as it was; when
    it succeeds, the list is replaced by the one received, or by the
    empty list if the response has none, and the error is cleared. *)
Theorem login_frame w net :
  trim (token (ui w)) ≠ "" →
  let w' := handleLogin w net in
  selectedExperiment (ui w') = selectedExperiment (ui w)
  ∧ results (ui w') = results (ui w)
  ∧ token (ui w') = token (ui w)
  ∧ apiStatus (ui w') = apiStatus (ui w)
  ∧ showJson (ui w') = showJson (ui w)
  ∧ loading (ui w') = false
  ∧ match snd (getExperiments (setAuthToken (token (ui w)) (api w))
                 None net) with
    | Rejected err =>
        experiments (ui w') = experiments (ui w)
        ∧ isAuthenticated (ui w') = false
    | Resolved response =>
        experiments (ui w')
        = default [] (ExperimentsListResponse.experiments response)
        ∧ isAuthenticated (ui w') = true
        ∧ error (ui w') = None
    end.
Proof.
  intros Hsome. cbv zeta. unfold handleLogin.
  destruct (String.eqb_spec (trim (token (ui w))) ""); [contradiction |].
  unfold getExperiments. simpl.
  destruct net as [e | status body | [v | e]]; simpl;
    [ | destruct (error_message status body) | | ];
    repeat split.
Qed.

Lemma login_frame_witness :
  experiments
    (ui (handleLogin
           (handleLogin (Scenario.page "secret")
              Scenario.experiments_response)
           Scenario.invalid_token_response))
  = [Scenario.experiment]
  ∧ isAuthenticated
      (ui (handleLogin
             (handleLogin (Scenario.page "secret")
                Scenario.experiments_response)
             Scenario.invalid_token_response))
    = false.
Proof.
  assert (Hvalid :
    trim (token (ui (handleLogin (Scenario.page "secret")
                       Scenario.experiments_response))) ≠ "")
    by discriminate.
  pose proof (login_frame _ Scenario.invalid_token_response Hvalid)
    as (_ & _ & _ & _ & _ & _ & Hfailed).
  exact Hfailed.
Defined.

(** Loading results leaves the API module (the token with it), the
    login state, the experiment list, the typed token, the health
    indicator and the JSON switch alone, and sends exactly one request. *)
Theorem load_frame experiment w net :
  let w' := loadExperimentResults experiment w net in
  api w' = api w
  ∧ isAuthenticated (ui w') = isAuthenticated (ui w)
  ∧ experiments (ui w') = experiments (ui w)
  ∧ token (ui w') = token (ui w)
  ∧ apiStatus (ui w') = apiStatus (ui w)
  ∧ showJson (ui w') = showJson (ui w)
  ∧ length (requests w') = S (length (requests w)).
Proof.
  cbv zeta. unfold loadExperimentResults, getExperimentResults. simpl.
  rewrite length_app. simpl.
  destruct net as [e | status body | [v | e]]; simpl;
    [ | destruct (error_message status body) | | ];
    repeat split; lia.
Qed.

(** [loadExperimentResults] is its part before the [await] followed by
    its part after it. With two loads in flight, for A and then for B,
    the answer for B settles first and the answer for A after it: the
    page ends with B selected and the results of A shown; and had the
    request for A failed, B's results would be gone and the error
    shown. After the first answer [loading] is already off. *)
Theorem stale_answer_overwrites (s : State) (A B : Experiment.t)
    (forA forB : ExperimentResults.t) :
  (∀ experiment w net,
      ui (loadExperimentResults experiment w net)
      = loadExperimentResults_settle
          (snd (getExperimentResults (api w) (Experiment.id experiment)
                  (Some load_params) net))
          (loadExperimentResults_begin experiment (ui w)))
  ∧ let in_flight :=
      loadExperimentResults_begin B (loadExperimentResults_begin A s) in
    let after_B := loadExperimentResults_settle (Resolved forB) in_flight in
    let after_A := loadExperimentResults_settle (Resolved forA) after_B in
    selectedExperiment in_flight = Some B
    ∧ results after_B = Some forB
    ∧ loading after_B = false
    ∧ selectedExperiment after_A = Some B
    ∧ results after_A = Some forA
    ∧ error after_A = None
    ∧ ∀ err,
        let failed_A := loadExperimentResults_settle (Rejected err) after_B in
        selectedExperiment failed_A = Some B
        ∧ results failed_A = None
        ∧ error failed_A = Some (message_or "Failed to load results" err).
Proof.
  split.
  - intros experiment w net.
    unfold loadExperimentResults, getExperimentResults. simpl.
    destruct net as [e | status body | [v | e]]; simpl;
      [ | destruct (error_message status body) | | ]; reflexivity.
  - cbv zeta. repeat split.
Qed.








(** After a login that the server refused, the login screen is shown,
    and under the button it shows the server's [detail] when that is a
    non-empty string and "Unknown error" when the body did not parse;
    when [detail] is an empty array the error is the empty string and
    nothing is shown at all. *)
Theorem refused_login_banner w status body :
  trim (token (ui w)) ≠ "" →
  let w' := handleLogin w (ErrorResponse status body) in
  screen (ui w') = LoginScreen
  ∧ (∀ fields d,
       body = Parsed (JObj fields) →
       own_property fields "detail" = Some (JStr d) → d ≠ "" →
       login_error_banner (ui w') = Some d)
  ∧ (∀ e, body = Unparsable e →
          login_error_banner (ui w') = Some "Unknown error")
  ∧ (∀ fields,
       body = Parsed (JObj fields) →
       own_property fields "detail" = Some (JArr []) →
       error (ui w') = Some "" ∧ login_error_banner (ui w') = None).
Proof.
  intros Hsome. cbv zeta. unfold handleLogin.
  destruct (String.eqb_spec (trim (token (ui w))) ""); [contradiction |].
  unfold getExperiments, screen, login_error_banner. simpl.
  split; [| split; [| split]].
  - destruct (error_message status body); reflexivity.
  - intros fields d -> Hdetail Hd. unfold error_message. simpl.
    rewrite Hdetail, (truthy_nonempty_string d Hd). simpl.
    destruct (String.eqb_spec d ""); [contradiction | reflexivity].
  - intros e ->. reflexivity.
  - intros fields -> Hdetail. unfold error_message. simpl.
    rewrite Hdetail. split; reflexivity.
Qed.

Lemma refused_login_banner_witness :
  login_error_banner
    (ui (handleLogin (Scenario.page "expired")
           Scenario.invalid_token_response))
  = Some "Invalid token"
  ∧ login_error_banner
      (ui (handleLogin (Scenario.page "expired")
             (ErrorResponse 422 (Parsed (JObj [("detail", JArr [])])))))
    = None.
Proof.
  assert (Hvalid : trim (token (ui (Scenario.page "expired"))) ≠ "")
    by discriminate.
  split.
  - apply (proj1 (proj2 (refused_login_banner (Scenario.page "expired") 401
                           Scenario.invalid_token_body Hvalid))
             [("detail", JStr "Invalid token"); ("status_code", JNum 401)]
             "Invalid token" eq_refl eq_refl).
    discriminate.
  - apply (proj2 (proj2 (proj2
             (refused_login_banner (Scenario.page "expired") 422
                (Parsed (JObj [("detail", JArr [])])) Hvalid)))
             [("detail", JArr [])] eq_refl eq_refl).
Defined.

(** The two confidence tables agree: for every confidence level the
    badge has a colour, and the rule table has exactly one row whose
    label is the text of the badge, in the colour of the badge; the rows
    come in the order low, medium, high, significant. *)
Theorem confidence_tables_agree (c : ConfidenceLevel) :
  (∃ colour,
      confidence_badge_color c = Some colour
      ∧ filter (fun rule => Rule.level rule = confidence_badge_text c)
               CONFIDENCE_RULES
        = filter (fun rule => Rule.color rule = colour) CONFIDENCE_RULES
      ∧ length (filter (fun rule => Rule.level rule = confidence_badge_text c)
                       CONFIDENCE_RULES) = 1%nat)
  ∧ map Rule.level CONFIDENCE_RULES
    = map confidence_badge_text [low; medium; high; significant].
Proof.
  split; [| reflexivity].
  destruct c; eexists; (split; [reflexivity |]); split; reflexivity.
Qed.

(** *** A visit, event by event *)


Lemma loadExperimentResults_effect experiment w net :
  ∃ ui' request,
    loadExperimentResults experiment w net
    = {| api := api w; ui := ui'; requests := requests w ++ [request] |}
    ∧ headers request = request_headers (api w) ∅
    ∧ loading ui' = false
    ∧ apiStatus ui' = apiStatus (ui w)
    ∧ isAuthenticated ui' = isAuthenticated (ui w)
    ∧ selectedExperiment ui' = Some experiment.
Proof.
  unfold loadExperimentResults, getExperimentResults. simpl. eexists _, _.
  split; [reflexivity |]. simpl.
  destruct net as [e | status body | [v | e]]; simpl;
    [ | destruct (error_message status body) | | ]; done.
Qed.



(** Reads the fields of the records the handlers build. *)
Ltac fields :=
  cbn [api ui requests loading apiStatus isAuthenticated
       selectedExperiment results setShowJson setToken setError
       API_BASE_URL authToken setAuthToken].









(** Once logged in there is no way back: whatever happens on the main
    screen, a failed load included, the page stays on the main screen
    and the stored token stays the same. *)
Theorem no_way_back_to_login w events :
  screen (ui w) = MainScreen →
  screen (ui (run w events)) = MainScreen ∧ api (run w events) = api w.
Proof.
  revert w. induction events as [|e rest IH]; intros w Hmain; [done |].
  assert (Hstep : screen (ui (dispatch w e)) = MainScreen
                  ∧ api (dispatch w e) = api w).
  { unfold dispatch. rewrite Hmain.
    destruct e as [v | net | rows net |]; try done.
    - unfold handleExperimentSelect.
      destruct rows as [[|experiment others]|]; try done.
      destruct (loadExperimentResults_effect experiment w net)
        as (ui' & request & -> & _ & _ & _ & Hauth & _).
      unfold screen in *. simpl. by rewrite Hauth.
    - by destruct (selectedExperiment (ui w)), (results (ui w)). }
  destruct Hstep as [Hmain' Hapi].
  destruct (IH (dispatch w e) Hmain') as [Hend Hapi'].
  split; [exact Hend |]. simpl. by rewrite Hapi'.
Qed.

Lemma no_way_back_to_login_witness :
  screen
    (ui (run (handleLogin (Scenario.page "secret")
                Scenario.experiments_response)
           [ConnectClicked Scenario.invalid_token_response;
            SelectionChanged (Some [Scenario.experiment])
              (ErrorResponse 401 Scenario.invalid_token_body)]))
  = MainScreen.
Proof.
  exact (proj1 (no_way_back_to_login
                  (handleLogin (Scenario.page "secret")
                     Scenario.experiments_response)
                  [ConnectClicked Scenario.invalid_token_response;
                   SelectionChanged (Some [Scenario.experiment])
                     (ErrorResponse 401 Scenario.invalid_token_body)]
                  eq_refl)).
Defined.

End Handlers.

(** ** More on the matrix *)

Section Matrix_shape.
Import Dashboard Spec.







End Matrix_shape.

(** ** The question mark *)

Section Query_mark.
Import Api.

(** The path gets a "?" exactly when the query has at least one pair:
    with none, nothing is appended, and otherwise the suffix is "?"
    followed by the serialized pairs. *)
Theorem query_suffix_mark (sp : URLSearchParams) :
  (query_suffix sp = "" ↔ sp = [])
  ∧ (sp ≠ [] → query_suffix sp = "?" +:+ searchParams_toString sp).
Proof.
  assert (Hsome : ∀ p rest, searchParams_toString (p :: rest) ≠ "").
  { intros [n v] rest.
    destruct rest as [|q rest]; cbn [searchParams_toString];
      destruct (urlencode n); discriminate. }
  unfold query_suffix. destruct sp as [|p rest].
  - split; [done |]. by intros [].
  - destruct (String.eqb_spec (searchParams_toString (p :: rest)) "")
      as [Hempty | _]; [by destruct (Hsome p rest) |].
    split; [| done]. split; discriminate.
Qed.

Lemma query_suffix_mark_witness :
  query_suffix (getExperiments_searchParams
                  (Some {| ListParams.status := Some "running";
                           ListParams.limit := Some 10;
                           ListParams.offset := None |}))
  = "?status=running&limit=10".
Proof.
  apply (proj2 (query_suffix_mark
                  (getExperiments_searchParams
                     (Some {| ListParams.status := Some "running";
                              ListParams.limit := Some 10;
                              ListParams.offset := None |})))).
  discriminate.
Defined.

End Query_mark.
